(** * DELTA V2 cloud service: the CAD generation endpoint and the health probe

    A shallow embedding of [streamlit_app.py]: the HTTP handler
    [generate_cad] (POST /cad/generate), the readiness probe [health]
    (GET /health) and the dashboard's self-test button.

    Python values are modelled as the interpreter has them:
    - a [str] is a sequence of Unicode code points ([list N]), so that
      slicing ([stderr[:500]]) counts characters and a lone surrogate,
      which [json] happily produces, is a value like any other;
    - [bytes] are [list byte];
    - the file system is a dictionary from paths to nodes;
    - a call either returns a value or raises an exception, and threads
      the state of the machine (file system, live child processes,
      console). *)

From Stdlib Require Import NArith ZArith Ascii String.
From Stdlib Require Import Strings.Byte DecimalString.
From stdpp Require Import gmap list fin_maps.

Local Open Scope N_scope.

(** ** Python strings *)

Module Str.

Abbreviation str := (list N).

(** A literal of the source, ASCII only. *)
Definition lit (s : string) : str := map N_of_ascii (list_ascii_of_string s).

Definition sq : N := 39.  (* ' *)
Definition dq : N := 34.  (* the double quote *)

(** [quoted q s] is [s] between two quote characters [q]:
  the f-strings [f"'{output_path}'"] and [f'"{output_path}"']. *)
Definition quoted (q : N) (s : str) : str := q :: s ++ [q].

(** [s.startswith(p)] *)
Fixpoint startswith (p s : str) : bool :=
match p, s with
| [], _ => true
| _ :: _, [] => false
| a :: p', c :: s' => (a =? c) && startswith p' s'
end.

(** [p in s]: some suffix of [s] starts with [p]. *)
Fixpoint occurs (p s : str) : bool :=
startswith p s || match s with [] => false | _ :: s' => occurs p s' end.

(** [str.replace] scans from the left; after a match it resumes behind the
  matched text, so occurrences that overlap an earlier match are not seen.
  [skip] counts the characters of the current match still to be passed. *)
Fixpoint replace_from (old new : str) (skip : nat) (s : str) : str :=
match s with
| [] => []
| c :: s' =>
    match skip with
    | S k => replace_from old new k s'
    | O =>
        if startswith old s
        then new ++ replace_from old new (Nat.pred (length old)) s'
        else c :: replace_from old new 0 s'
    end
end.

(** [s.replace(old, new)]. With an empty [old] Python inserts [new] before
  every character and at the end. *)
Definition replace (s old new : str) : str :=
match old with
| [] => new ++ flat_map (fun c => c :: new) s
| _ :: _ => replace_from old new 0 s
end.

(** [s[:n]] *)
Definition slice_to (n : nat) (s : str) : str := take n s.

End Str.
Import Str.

(** ** Paths *)

Definition sep : N := 47.  (* / *)

(** [os.path.join(a, b)] on POSIX, for two components. *)
Definition os_path_join (a b : str) : str :=
  if startswith [sep] b then b
  else match a with
       | [] => b
       | _ => if decide (last a = Some sep) then a ++ b else a ++ sep :: b
       end.

(** ** Rewriting the script (lines 86-87) *)

Definition output_name : str := lit "output.stl".

Definition prepare_code (output_path code : str) : str :=
  let code := replace code (quoted sq output_name) (quoted sq output_path) in
  replace code (quoted dq output_name) (quoted dq output_path).

(** ** Codecs *)

Module Codec.

Abbreviation bytes := (list byte).

Definition byte_of_N (n : N) : byte := default "000"%byte (Byte.of_N (n mod 256)).

Definition is_surrogate (c : N) : bool := (0xD800 <=? c) && (c <=? 0xDFFF).

(** UTF-8 form of one code point; a surrogate has none
  (the codec's default error handler is [strict]). *)
Definition utf8_encode_char (c : N) : option bytes :=
if c <? 0x80 then Some [byte_of_N c]
else if c <? 0x800 then
  Some [byte_of_N (0xC0 + c / 64); byte_of_N (0x80 + c mod 64)]
else if is_surrogate c then None
else if c <? 0x10000 then
  Some [byte_of_N (0xE0 + c / 4096); byte_of_N (0x80 + (c / 64) mod 64);
        byte_of_N (0x80 + c mod 64)]
else if c <? 0x110000 then
  Some [byte_of_N (0xF0 + c / 262144); byte_of_N (0x80 + (c / 4096) mod 64);
        byte_of_N (0x80 + (c / 64) mod 64); byte_of_N (0x80 + c mod 64)]
else None.

(** [s.encode('utf-8')]: the bytes, or the position of the first character
  that cannot be encoded. *)
Fixpoint utf8_encode_from (i : nat) (s : str) : bytes + nat :=
match s with
| [] => inl []
| c :: s' =>
    match utf8_encode_char c with
    | None => inr i
    | Some bs =>
        match utf8_encode_from (S i) s' with
        | inl r => inl (bs ++ r)
        | inr j => inr j
        end
    end
end.

Definition utf8_encode (s : str) : bytes + nat := utf8_encode_from 0 s.

Definition continuation (b : N) : bool := (0x80 <=? b) && (b <=? 0xBF).

(** Strict UTF-8 decoding of a sequence of byte values. *)
Fixpoint utf8_decode_values (bs : list N) : option str :=
match bs with
| [] => Some []
| b0 :: r0 =>
    if b0 <? 0x80 then cons b0 <$> utf8_decode_values r0
    else if (0xC2 <=? b0) && (b0 <=? 0xDF) then
      match r0 with
      | b1 :: r1 =>
          if continuation b1
          then cons ((b0 - 0xC0) * 64 + (b1 - 0x80)) <$> utf8_decode_values r1
          else None
      | _ => None
      end
    else if (0xE0 <=? b0) && (b0 <=? 0xEF) then
      match r0 with
      | b1 :: b2 :: r2 =>
          let c := (b0 - 0xE0) * 4096 + (b1 - 0x80) * 64 + (b2 - 0x80) in
          if continuation b1 && continuation b2 && (0x800 <=? c) && negb (is_surrogate c)
          then cons c <$> utf8_decode_values r2
          else None
      | _ => None
      end
    else if (0xF0 <=? b0) && (b0 <=? 0xF4) then
      match r0 with
      | b1 :: b2 :: b3 :: r3 =>
          let c := (b0 - 0xF0) * 262144 + (b1 - 0x80) * 4096
                   + (b2 - 0x80) * 64 + (b3 - 0x80) in
          if continuation b1 && continuation b2 && continuation b3
             && (0x10000 <=? c) && (c <? 0x110000)
          then cons c <$> utf8_decode_values r3
          else None
      | _ => None
      end
    else None
end.

(** [b.decode('utf-8')] *)
Definition utf8_decode (b : bytes) : option str :=
utf8_decode_values (map Byte.to_N b).

End Codec.
Import Codec.

(** ** Base64 (RFC 4648, standard alphabet, padded): [base64.b64encode] *)

Module Base64.

Definition alphabet : bytes :=
list_byte_of_string
  "ABCDEFGHIJKLMNOPQRSTUVWXYZabcdefghijklmnopqrstuvwxyz0123456789+/".

Definition pad : byte := "="%byte.

Definition digit (n : N) : byte := nth (N.to_nat n) alphabet pad.

Fixpoint b64encode (data : bytes) : bytes :=
match data with
| [] => []
| [a] =>
    let a := Byte.to_N a in
    [digit (a / 4); digit (a mod 4 * 16); pad; pad]
| [a; b] =>
    let a := Byte.to_N a in
    let b := Byte.to_N b in
    [digit (a / 4); digit (a mod 4 * 16 + b / 16); digit (b mod 16 * 4); pad]
| a :: b :: c :: rest =>
    let a := Byte.to_N a in
    let b := Byte.to_N b in
    let c := Byte.to_N c in
    digit (a / 4) :: digit (a mod 4 * 16 + b / 16)
      :: digit (b mod 16 * 4 + c / 64) :: digit (c mod 64) :: b64encode rest
end.

(** The inverse direction, as a client decodes [stl_data]: the value of a
  character is its position in the alphabet. *)
Fixpoint position_from (i : N) (c : N) (l : bytes) : option N :=
match l with
| [] => None
| x :: l' => if Byte.to_N x =? c then Some i else position_from (N.succ i) c l'
end.

Definition value (c : N) : option N := position_from 0 c alphabet.

Definition pad_char : N := Byte.to_N pad.

Fixpoint b64decode (s : str) : option bytes :=
match s with
| [] => Some []
| c0 :: c1 :: c2 :: c3 :: rest =>
    v0 ← value c0; v1 ← value c1;
    if c2 =? pad_char then
      if (c3 =? pad_char) && bool_decide (rest = [])
      then Some [byte_of_N (v0 * 4 + v1 / 16)]
      else None
    else
      v2 ← value c2;
      if c3 =? pad_char then
        if bool_decide (rest = [])
        then Some [byte_of_N (v0 * 4 + v1 / 16); byte_of_N (v1 mod 16 * 16 + v2 / 4)]
        else None
      else
        v3 ← value c3;
        r ← b64decode rest;
        Some (byte_of_N (v0 * 4 + v1 / 16) :: byte_of_N (v1 mod 16 * 16 + v2 / 4)
                :: byte_of_N (v2 mod 4 * 64 + v3) :: r)
| _ => None
end.

End Base64.
Import Base64.

(** ** Exceptions and outcomes *)

(** The exceptions the handlers can meet. All of them derive from
    [Exception]; [Fault] stands for any other subclass, by type name and
    message. *)
Inductive exn :=
| TimeoutExpired (cmd : list str) (timeout : N)
| UnicodeEncodeError (encoding object : str) (start : nat)
| UnicodeDecodeError (encoding : str)
| FileNotFoundError (filename : str)
| IsADirectoryError (filename : str)
| PermissionError (filename : str)
| ImportError (name : str)
| Fault (type_name message : str).

Definition is_TimeoutExpired (e : exn) : bool :=
  match e with TimeoutExpired _ _ => true | _ => false end.

Definition is_ImportError (e : exn) : bool :=
  match e with ImportError _ => true | _ => false end.

Inductive outcome (A : Type) :=
| Return (a : A)
| Raise (e : exn).
Arguments Return {A} a.
Arguments Raise {A} e.

(** ** The machine: file system, child processes, session state, console *)

(** A regular file the server can read, a directory, or a regular file it
    may not read (mode 000). Other kinds of entry are not modelled: a FIFO,
    on which opening for reading blocks, has no place here. *)
Inductive node :=
| File (data : bytes)
| Dir
| Unreadable.

(** [sys.stdout] of the server: a text stream with an encoding, which
    refuses (error handler [strict]) the characters its encoding lacks. *)
Record console := Console {
  encoding : str;
  encodes : N -> bool
}.

Record world := World {
  files : gmap str node;       (* path -> node *)
  children : nat;              (* live child processes of the server *)
  request_count : nat;         (* st.session_state.request_count *)
  sys_stdout : console
}.

Definition set_files (f : gmap str node) (w : world) : world :=
  World f (children w) (request_count w) (sys_stdout w).
Definition set_children (n : nat) (w : world) : world :=
  World (files w) n (request_count w) (sys_stdout w).
Definition set_request_count (n : nat) (w : world) : world :=
  World (files w) (children w) n (sys_stdout w).

(** The position of the first character of [s] the console refuses. *)
Fixpoint first_refused (c : console) (i : nat) (s : str) : option nat :=
  match s with
  | [] => None
  | x :: s' => if encodes c x then first_refused c (S i) s' else Some i
  end.

Definition utf8_console : console :=
  Console (lit "utf-8") (fun c => bool_decide (is_Some (utf8_encode_char c))).

(** [within d p]: the path [p] is [d] itself or lies below it. *)
Definition within (d p : str) : bool :=
  bool_decide (p = d) || startswith (d ++ [sep]) p.

(** What a child process does, as seen from its parent. *)
Record CompletedProcess := Completed {
  returncode : Z;
  stdout : str;
  stderr : str
}.

(** A started process leaves the file system in state [fs_at t] after [t]
    seconds and ends (if ever) after [d] seconds: [finish = Some (d, o)],
    where [o] is what the parent obtains from it, either the exit code with
    the output captured as text ([Return r]) or the exception of the
    capture ([Raise e]: with [text=True] output that does not decode makes
    [subprocess.run] raise). [Fails e]: the process could not be started
    and [subprocess.run] raises [e]. *)
Inductive behaviour :=
| Fails (e : exn)
| Runs (fs_at : N -> gmap str node)
       (finish : option (N * outcome CompletedProcess)).





(** ** Computations *)

Definition Py (A : Type) : Type := world -> outcome A * world.

Definition ret {A} (a : A) : Py A := fun w => (Return a, w).
Definition raise {A} (e : exn) : Py A := fun w => (Raise e, w).
Definition bind {A B} (m : Py A) (k : A -> Py B) : Py B := fun w =>
  match m w with
  | (Return a, w') => k a w'
  | (Raise e, w') => (Raise e, w')
  end.

(** [try: m except Exception as e: h e] *)
Definition try_except {A} (m : Py A) (h : exn -> Py A) : Py A := fun w =>
  match m w with
  | (Return a, w') => (Return a, w')
  | (Raise e, w') => h e w'
  end.

(** [try: m finally: c] where [c] does not raise. *)
Definition finally {A} (m : Py A) (c : world -> world) : Py A := fun w =>
  let (r, w') := m w in (r, c w').

Declare Scope py_scope.
Delimit Scope py_scope with py.
Notation "'let!' x ':=' m 'in' k" := (bind m (fun x => k))
  (at level 10, x name, m at level 100, k at level 200) : py_scope.
Notation "'do!' m 'in' k" := (bind m (fun _ => k))
  (at level 10, m at level 100, k at level 200) : py_scope.
Local Open Scope py_scope.

(** ** The data model (lines 30-36) *)

Record CADRequest := { code : str }.

Record CADResponse := {
  success : bool;
  stl_data : option str;
  error : option str
}.

Record health_report := {
  status : str;
  services : gmap str str
}.

(** Outcome of the dashboard's self-test button. *)
Inductive test_report :=
| TestPassed                  (* st.success(...) *)
| TestFailed (stderr : str)   (* st.error(f"... {result.stderr}") *)
| TestError (e : exn).        (* st.error(f"... {e}") *)

Definition nl : N := 10.
Definition e_acute : N := 233.

(** [str(n)] *)
Definition decimal (n : nat) : str := lit (NilEmpty.string_of_uint (Nat.to_uint n)).

(** The two log lines (lines 79 and 117). *)
Definition entry_line : str :=
  lit "[CLOUD CAD] Nouvelle requ" ++ 0xEA :: lit "te".
Definition success_line (n : nat) : str :=
  lit "[CLOUD CAD] " ++ 0x2705 :: lit " Succ" ++ 0xE8 :: lit "s! "
    ++ decimal n ++ lit " bytes".

Definition msg_not_generated : str :=
  lit "Fichier STL non g" ++ e_acute :: lit "n" ++ e_acute :: lit "r" ++ [e_acute].
Definition msg_timeout : str := lit "Timeout (>45s)".

Definition test_code : str :=
  nl :: lit "from build123d import *" ++ nl :: nl ::
  lit "with BuildPart() as p:" ++ nl ::
  lit "    Box(10, 10, 10)" ++ nl :: nl ::
  lit "result_part = p.part" ++ nl ::
  lit "export_stl(result_part, 'output.stl')" ++ [nl].

(** ** The service

    Left out of the model: failures of the operating system itself while
    the workspace is created or the script file is opened (a full disk,
    missing rights), and whatever acts on the machine once
    [subprocess.run] has returned. So the removal of the workspace always
    succeeds here; on the real machine it raises [OSError] when a process
    the script left behind is still writing into the directory, and that
    exception then takes the place of the response. *)

Section Service.

(** The environment of the server process. *)
Variable python : list str -> gmap str node -> behaviour.
    (* what running [argv] does when started on a file system *)
Variable tmpdir : str.
    (* the directory name [tempfile] hands out *)
Variable builtin_text : exn -> str.
    (* [str(e)] for the interpreter's own exception types *)
Variable import_module : str -> outcome unit.
    (* the outcome of an [import] statement *)

(** [str(e)] *)
Definition str_of_exn (e : exn) : str :=
  match e with
  | Fault _ message => message
  | _ => builtin_text e
  end.

(** *** File system and process primitives *)

(** [shutil.rmtree(d)]: [d] and everything below it. *)
Definition rmtree (d : str) (w : world) : world :=
  set_files (filter (fun kv => within d kv.1 = false) (files w)) w.

(** [with tempfile.TemporaryDirectory() as d: body d] *)
Definition with_TemporaryDirectory {A} (body : str -> Py A) : Py A := fun w =>
  let w1 := set_files (<[tmpdir := Dir]> (files w)) w in
  finally (body tmpdir) (rmtree tmpdir) w1.

(** [with open(path, 'w', encoding='utf-8') as f: f.write(text)]:
    opening truncates the file; the text is encoded as a whole before any
    of it is written. *)
Definition write_text (path text : str) : Py unit := fun w =>
  match utf8_encode text with
  | inl data => (Return tt, set_files (<[path := File data]> (files w)) w)
  | inr i => (Raise (UnicodeEncodeError (lit "utf-8") text i),
              set_files (<[path := File []]> (files w)) w)
  end.

(** [print(line)]: the line goes to [sys.stdout], which raises on the first
    character its encoding lacks. *)
Definition py_print (line : str) : Py unit := fun w =>
  match first_refused (sys_stdout w) 0 line with
  | None => (Return tt, w)
  | Some i => (Raise (UnicodeEncodeError (encoding (sys_stdout w)) line i), w)
  end.

(** [os.path.exists(path)] *)
Definition os_path_exists (path : str) : Py bool := fun w =>
  (Return (bool_decide (is_Some (files w !! path))), w).

(** [with open(path, 'rb') as f: f.read()] *)
Definition read_bytes (path : str) : Py bytes := fun w =>
  match files w !! path with
  | Some (File data) => (Return data, w)
  | Some Dir => (Raise (IsADirectoryError path), w)
  | Some Unreadable => (Raise (PermissionError path), w)
  | None => (Raise (FileNotFoundError path), w)
  end.

(** [b.decode('utf-8')] *)
Definition decode_utf8 (b : bytes) : Py str := fun w =>
  match utf8_decode b with
  | Some s => (Return s, w)
  | None => (Raise (UnicodeDecodeError (lit "utf-8")), w)
  end.

(** [subprocess.run(argv, capture_output=True, text=True, timeout=t)]:
    start the child, wait for it at most [t] seconds; a child still
    running then is killed and waited for before [TimeoutExpired] is
    raised. *)
Definition subprocess_run (argv : list str) (timeout : N) : Py CompletedProcess :=
  fun w =>
    match python argv (files w) with
    | Fails e => (Raise e, w)
    | Runs fs_at finish =>
        let w1 := set_children (S (children w)) w in            (* Popen *)
        match finish with
        | Some (d, o) =>
            if d <=? timeout then
              (o,
               set_children (Nat.pred (children w1)) (set_files (fs_at d) w1))
            else
              (Raise (TimeoutExpired argv timeout),             (* kill(); wait() *)
               set_children (Nat.pred (children w1)) (set_files (fs_at timeout) w1))
        | None =>
            (Raise (TimeoutExpired argv timeout),
             set_children (Nat.pred (children w1)) (set_files (fs_at timeout) w1))
        end
    end.

(** *** GET /health (lines 60-74) *)

Definition health : outcome health_report :=
  let services : gmap str str := ∅ in
  let imported :=
    match import_module (lit "build123d") with
    | Return _ => Return (<[lit "cad" := lit "ready"]> services)
    | Raise e =>
        if is_ImportError e
        then Return (<[lit "cad" := lit "missing"]> services)
        else Raise e
    end in
  match imported with
  | Raise e => Raise e
  | Return services =>
      Return {| status := if bool_decide (services !! lit "cad" = Some (lit "ready"))
                          then lit "healthy" else lit "degraded";
                services := services |}
  end.

(** *** POST /cad/generate (lines 76-133)

    [generate_cad] is the handler from the workspace on (lines 81-133);
    [cad_generate_logged] below puts the entry log line of line 79 in
    front of it. *)

Definition failed (message : str) : CADResponse :=
  {| success := false; stl_data := None; error := Some message |}.

Definition succeeded (stl_b64 : str) : CADResponse :=
  {| success := true; stl_data := Some stl_b64; error := None |}.

Definition generate_cad (request : CADRequest) : Py CADResponse :=
  with_TemporaryDirectory (fun tmpdir =>
    let script_path := os_path_join tmpdir (lit "model.py") in
    let output_path := os_path_join tmpdir (lit "output.stl") in
    let code := prepare_code output_path (code request) in
    do! write_text script_path code in
    try_except
      (let! result := subprocess_run [lit "python"; script_path] 45 in
       if negb (returncode result =? 0)%Z then
         ret (failed (slice_to 500 (stderr result)))
       else
         let! found := os_path_exists output_path in
         if negb found then
           ret (failed msg_not_generated)
         else
           let! stl_bytes := read_bytes output_path in
           let! stl_b64 := decode_utf8 (b64encode stl_bytes) in
           do! py_print (success_line (length stl_bytes)) in
           ret (succeeded stl_b64))
      (fun e =>
         if is_TimeoutExpired e
         then ret (failed msg_timeout)
         else ret (failed (str_of_exn e)))).

(** The whole route: the entry log line is printed before the workspace
    is made, outside every [try]. *)
Definition cad_generate_logged (request : CADRequest) : Py CADResponse :=
  do! py_print entry_line in
  generate_cad request.

(** *** The self-test button (lines 231-267) *)

Definition self_test : Py test_report :=
  try_except
    (with_TemporaryDirectory (fun tmpdir =>
       let script_path := os_path_join tmpdir (lit "test.py") in
       let output_path := os_path_join tmpdir (lit "output.stl") in
       let code := replace test_code (quoted sq output_name) (quoted sq output_path) in
       do! write_text script_path code in
       let! result := subprocess_run [lit "python"; script_path] 10 in
       let! found := os_path_exists output_path in
       if (returncode result =? 0)%Z && found then
         (fun w => (Return TestPassed, set_request_count (S (request_count w)) w))
       else
         ret (TestFailed (stderr result))))
    (fun e => ret (TestError e)).

End Service.

(** ** Reading aids for the statements below *)

Section Workspace.

Variable python : list str -> gmap str node -> behaviour.
Variable tmpdir : str.

Definition script_path : str := os_path_join tmpdir (lit "model.py").
Definition output_path : str := os_path_join tmpdir (lit "output.stl").
Definition test_path : str := os_path_join tmpdir (lit "test.py").

(** The file system the child of [generate_cad] is started on: the fresh
    workspace holding the encoded script. *)
Definition staged (data : bytes) (w : world) : gmap str node :=
  <[script_path := File data]> (<[tmpdir := Dir]> (files w)).

(** [launched request w = Some b]: the rewritten script of [request] was
    written to the workspace and the interpreter, started on it, behaves
    as [b]. [None]: the script could not be written. *)
Definition launched (request : CADRequest) (w : world) : option behaviour :=
  match utf8_encode (prepare_code output_path (code request)) with
  | inl data => Some (python [lit "python"; script_path] (staged data w))
  | inr _ => None
  end.

(** The same for the self-test. *)
Definition launched_test (w : world) : option behaviour :=
  match utf8_encode
          (replace test_code (quoted sq output_name) (quoted sq output_path)) with
  | inl data =>
      Some (python [lit "python"; test_path]
              (<[test_path := File data]> (<[tmpdir := Dir]> (files w))))
  | inr _ => None
  end.


(** A process that touches nothing outside the directory [d]. *)
Definition confined (d : str) (b : behaviour) (fs : gmap str node) : Prop :=
  match b with
  | Fails _ => True
  | Runs fs_at _ => forall t p, within d p = false -> fs_at t !! p = fs !! p
  end.

(** A directory name as [mkdtemp] builds it: it does not end in a slash. *)
Definition well_named (d : str) : Prop :=
  exists c, last d = Some c /\ c <> sep.

End Workspace.

(** ** The rewriting step in the words of the specification *)

(** One pass from the left over the code: where a quoted [output.stl]
    begins (either quote), the quoted workspace path is emitted in the same
    quotes and the pass resumes behind the literal; any other character is
    copied. *)
Fixpoint scan_from (output_path : str) (skip : nat) (s : str) : str :=
  match s with
  | [] => []
  | c :: s' =>
      match skip with
      | S k => scan_from output_path k s'
      | O =>
          if startswith (quoted sq output_name) s then
            quoted sq output_path ++ scan_from output_path (S (length output_name)) s'
          else if startswith (quoted dq output_name) s then
            quoted dq output_path ++ scan_from output_path (S (length output_name)) s'
          else c :: scan_from output_path 0 s'
      end
  end.

Definition substitute_literals (output_path code : str) : str :=
  scan_from output_path 0 code.

(** "Every occurrence is replaced", read literally: wherever the code
    splits as [pre ++ literal ++ post], the rewritten code is the rewritten
    [pre], the quoted path, and the rewritten [post]. *)
Definition replaces_every_occurrence (output_path code : str) : Prop :=
  forall q pre post,
    q = sq \/ q = dq ->
    code = pre ++ quoted q output_name ++ post ->
    prepare_code output_path code
    = prepare_code output_path pre ++ quoted q output_path
        ++ prepare_code output_path post.

(** "No filesystem entry outside the workspace was created", read
    literally, for one call. *)
Definition leaves_no_trace
    (python : list str -> gmap str node -> behaviour) (tmpdir : str)
    (builtin_text : exn -> str) (request : CADRequest) (w : world) : Prop :=
  forall p, within tmpdir p = false ->
    files w !! p = None ->
    files (generate_cad python tmpdir builtin_text request w).2 !! p = None.

(** What the caller receives: the response, if the handler returned one. *)
Definition delivered {A} (o : outcome A) : option A :=
  match o with
  | Return a => Some a
  | Raise _ => None
  end.

(** The two shapes of a response. *)
Definition one_shape (r : CADResponse) : Prop :=
  (success r = true /\ is_Some (stl_data r) /\ error r = None)
  \/ (success r = false /\ stl_data r = None /\ is_Some (error r)).

(** ** Concrete machines and scripts, used to exercise the statements *)

Module Scenario.

Definition tmp : str := lit "/tmp/tmpk3x9_q2a".
Definition artifact : str := lit "/tmp/tmpk3x9_q2a/output.stl".

(** A server with its own source file on disk and no child running. *)
Definition idle : world :=
  World {[ lit "/srv/app/streamlit_app.py" := File [] ]} 0 0 utf8_console.

Definition text (e : exn) : str := lit "error".

(** A script that runs [d] seconds, exits with [rc] and [err] on its
    standard error, and by then has written [written] (if any) to the
    artifact path. *)
Definition exits (d : N) (rc : Z) (err : str) (written : option bytes)
    (argv : list str) (fs : gmap str node) : behaviour :=
  Runs (fun _ => match written with
                 | Some data => <[artifact := File data]> fs
                 | None => fs
                 end)
       (Some (d, Return (Completed rc [] err))).

(** [while True: pass] *)
Definition loops (argv : list str) (fs : gmap str node) : behaviour :=
  Runs (fun _ => fs) None.

Definition stray : str := lit "/srv/app/output.stl".

(** A script that builds the file name at run time and so writes into
    the server's working directory, [/srv/app]. *)
Definition strays (argv : list str) (fs : gmap str node) : behaviour :=
  Runs (fun _ => <[stray := File (list_byte_of_string "solid")]> fs)
       (Some (1, Return (Completed 0 [] []))).

Definition cube : CADRequest := {| code := test_code |}.
Definition spin : CADRequest := {| code := lit "while True: pass" |}.
Definition roaming : CADRequest :=
  {| code := lit "open('out' + 'put.stl', 'w').write('solid')" |}.

(** A script text holding a lone surrogate, as the JSON body
    [{"code": "\ud800"}] decodes to. *)
Definition lone_surrogate : CADRequest := {| code := [0xD800] |}.

End Scenario.

(** ** The rest of the page *)

(** A character the utf-8 codec accepts: a code point that is no
    surrogate. *)
Definition encodable (c : N) : bool := negb (is_surrogate c) && (c <? 0x110000).

(** The dashboard's own look at the geometry library (lines 159-164):
    [try: import build123d ... except: ...], a bare [except]. *)
Definition installed_label : str := 0x2705 :: lit " Install" ++ [e_acute].
Definition missing_label : str := 0x274C :: lit " Manquant".

Definition build123d_metric (import_module : str -> outcome unit) : str :=
  match import_module (lit "build123d") with
  | Return _ => installed_label
  | Raise _ => missing_label
  end.

(** [st.session_state], one per browser session, and the number of API
    threads the server process has started. *)
Inductive pyval :=
| PyBool (b : bool)
| PyInt (n : nat).

(** Lines 144-147: start the API unless this session did so before. *)
Definition start_api_once (session_state : gmap str pyval) (threads : nat)
    : gmap str pyval * nat :=
  if bool_decide (is_Some (session_state !! lit "api_started"))
  then (session_state, threads)
  else (<[lit "api_started" := PyBool true]> session_state, S threads).

(** Lines 221-222: the request counter starts at zero. *)
Definition init_request_count (session_state : gmap str pyval) : gmap str pyval :=
  if bool_decide (is_Some (session_state !! lit "request_count"))
  then session_state
  else <[lit "request_count" := PyInt 0]> session_state.

(** One run of the page script from top to bottom, the button not
    pressed. *)
Definition page_run (state : gmap str pyval * nat) : gmap str pyval * nat :=
  let (session_state, threads) := start_api_once state.1 state.2 in
  (init_request_count session_state, threads).

(** A new browser session opens the page: an empty session state, the same
    server process. *)
Definition new_session (threads : nat) : nat := (page_run (∅, threads)).2.

(** More concrete machines. *)
Module Cases.


(** A script that exits cleanly after writing bytes to its standard output
    that are no text. *)
Definition garbled (argv : list str) (fs : gmap str node) : behaviour :=
  Runs (fun _ => fs) (Some (1, Raise (UnicodeDecodeError (lit "utf-8")))).


(** [str(e)] of the interpreter's exceptions, by type. *)
Definition text (e : exn) : str :=
  match e with
  | FileNotFoundError f => lit "[Errno 2] No such file or directory: " ++ quoted sq f
  | IsADirectoryError f => lit "[Errno 21] Is a directory: " ++ quoted sq f
  | _ => lit "error"
  end.

Definition import_ok (name : str) : outcome unit := Return tt.
Definition import_absent (name : str) : outcome unit := Raise (ImportError name).

End Cases.

(** ** Three sentences about the child, read literally *)




(** Children and a server that give trouble. *)
Module Trouble.








(** [str(e)] of the two codec errors met here. *)
Definition undecodable : str :=
  lit "'utf-8' codec can't decode byte 0xff in position 0: invalid start byte".
Definition unprintable : str :=
  lit "'ascii' codec can't encode character '\u2705' in position 12: "
    ++ lit "ordinal not in range(128)".
Definition text (e : exn) : str :=
  match e with
  | UnicodeDecodeError _ => undecodable
  | UnicodeEncodeError _ _ _ => unprintable
  | _ => lit "error"
  end.

End Trouble.

(** * Properties *)

(** ** Strings *)

Section ReplaceFacts.

Implicit Types (s t u p old new : str) (c : N).

Lemma startswith_split p s : startswith p s = true -> s = p ++ drop (length p) s.
Proof.
  revert s; induction p as [|a p IH]; intros [|c s]; simpl; try done.
  intros [Hac Hp]%andb_prop. apply N.eqb_eq in Hac as ->.
  f_equal. by apply IH.
Qed.

Lemma startswith_app p t : startswith p (p ++ t) = true.
Proof. induction p as [|a p IH]; simpl; [done|]. by rewrite N.eqb_refl. Qed.

Lemma startswith_nil_r p : startswith p [] = true -> p = [].
Proof. by destruct p. Qed.

(** A character that is not in [p] stops every match of [p]. *)
Lemma startswith_barrier p u c t :
  c ∉ p -> startswith p (u ++ c :: t) = startswith p u.
Proof.
  revert u; induction p as [|a p IH]; intros u Hc; [by destruct u|].
  apply not_elem_of_cons in Hc as [Hca Hc].
  destruct u as [|x u]; simpl.
  - replace (a =? c) with false; [done|]. symmetry. by apply N.eqb_neq.
  - by rewrite IH.
Qed.

Lemma replace_from_skip old new k s :
  replace_from old new k s = replace_from old new 0 (drop k s).
Proof.
  revert k; induction s as [|c s IH]; intros [|k]; simpl; auto.
Qed.

Lemma replace_from_nil old new k : replace_from old new k [] = [].
Proof. done. Qed.

Lemma replace_from_hit old new s :
  old <> [] -> startswith old s = true ->
  replace_from old new 0 s = new ++ replace_from old new 0 (drop (length old) s).
Proof.
  intros Hold Hs. destruct s as [|c s].
  - by apply startswith_nil_r in Hs.
  - cbn [replace_from]. rewrite Hs, replace_from_skip.
    destruct old as [|a old]; [done|]. done.
Qed.

Lemma replace_from_miss old new c s :
  startswith old (c :: s) = false ->
  replace_from old new 0 (c :: s) = c :: replace_from old new 0 s.
Proof. intros Hs. cbn [replace_from]. by rewrite Hs. Qed.

(** Text without any occurrence of [old] is left as it is. *)
Lemma replace_from_absent old new s :
  occurs old s = false -> replace_from old new 0 s = s.
Proof.
  induction s as [|c s IH]; [done|].
  cbn [occurs]. intros [Hs Ho]%orb_false_elim.
  rewrite replace_from_miss by done. by rewrite IH.
Qed.

(** A character outside [old] splits the text into two parts that are
    rewritten on their own. *)
Lemma replace_from_barrier old new u c t k :
  c ∉ old -> old <> [] -> (k <= length u)%nat ->
  replace_from old new k (u ++ c :: t)
  = replace_from old new k u ++ c :: replace_from old new 0 t.
Proof.
  intros Hc Hold. revert k.
  induction u as [|x u IH]; intros k Hk.
  - assert (k = 0%nat) as -> by (simpl in Hk; lia).
    rewrite app_nil_l, replace_from_miss; [done|].
    rewrite <- (app_nil_l (c :: t)), startswith_barrier by done.
    destruct old; done.
  - destruct k as [|k].
    + change ((x :: u) ++ c :: t) with (x :: (u ++ c :: t)).
      cbn [replace_from].
      change (x :: (u ++ c :: t)) with ((x :: u) ++ c :: t).
      rewrite startswith_barrier by done.
      destruct (startswith old (x :: u)) eqn:Hs.
      * rewrite IH, <- app_assoc; [done|].
        apply startswith_split in Hs. apply (f_equal length) in Hs.
        rewrite length_app, length_drop in Hs. simpl in Hs.
        destruct old; simpl in *; [done|lia].
      * rewrite IH by lia. done.
    + simpl. apply IH. simpl in Hk. lia.
Qed.

(** Text that does not contain the first character of [old] is copied. *)
Lemma replace_from_copy a old new u t :
  a ∉ u ->
  replace_from (a :: old) new 0 (u ++ t) = u ++ replace_from (a :: old) new 0 t.
Proof.
  induction u as [|x u IH]; [done|]. intros [Hax Hu]%not_elem_of_cons.
  change ((x :: u) ++ t) with (x :: (u ++ t)).
  rewrite replace_from_miss.
  - by rewrite IH.
  - simpl. replace (a =? x) with false; [done|]. symmetry. by apply N.eqb_neq.
Qed.

(** When [old] and [new] begin with the same character, a prefix free of
    that character is in the rewritten text iff it was in the text. *)
Lemma startswith_replace_from a old new p s :
  a ∉ p ->
  startswith p (replace_from (a :: old) (a :: new) 0 s) = startswith p s.
Proof.
  revert s; induction p as [|b p IH]; intros s Hp; [done|].
  apply not_elem_of_cons in Hp as [Hab Hp].
  destruct s as [|c s]; [done|].
  cbn [replace_from].
  destruct (startswith (a :: old) (c :: s)) eqn:Hs.
  - simpl in Hs. apply andb_prop in Hs as [Hac _]. apply N.eqb_eq in Hac as <-.
    simpl. replace (b =? a) with false; [done|].
    symmetry. apply N.eqb_neq. congruence.
  - simpl. by rewrite IH.
Qed.

Lemma scan_from_skip path k s :
  scan_from path k s = scan_from path 0 (drop k s).
Proof.
  revert k; induction s as [|c s IH]; intros [|k]; simpl; auto.
Qed.

End ReplaceFacts.

(** ** Rewriting the script *)

Section PrepareCode.

Local Abbreviation A := (quoted sq output_name).
Local Abbreviation B := (quoted dq output_name).

Lemma sq_not_in_B : sq ∉ B.
Proof. intros H. repeat (apply elem_of_cons in H as [H|H]; [discriminate H|]).
       by apply elem_of_nil in H. Qed.

Lemma length_literal q : length (quoted q output_name) = 12%nat.
Proof. reflexivity. Qed.

Lemma prepare_code_unfold path s :
  prepare_code path s
  = replace_from B (quoted dq path) 0 (replace_from A (quoted sq path) 0 s).
Proof. reflexivity. Qed.

(** The second pass leaves a single-quoted path alone. *)
Lemma second_pass_over_quoted new path R :
  occurs B path = false ->
  replace_from B new 0 (quoted sq path ++ R)
  = quoted sq path ++ replace_from B new 0 R.
Proof.
  intros Hpath. unfold quoted at 2 3.
  change ((sq :: path ++ [sq]) ++ R) with ([] ++ sq :: (path ++ [sq]) ++ R).
  rewrite <- (app_assoc path [sq] R).
  change ([sq] ++ R) with (sq :: R).
  rewrite (replace_from_barrier B _ [] sq) by (auto using sq_not_in_B; simpl; lia).
  rewrite (replace_from_barrier B _ path sq) by (auto using sq_not_in_B; simpl; lia).
  rewrite (replace_from_absent B _ path) by done.
  simpl. by rewrite <- app_assoc.
Qed.

(** The first pass copies the inside of a double-quoted literal. *)
Lemma first_pass_under_literal new s :
  startswith (output_name ++ [dq]) s = true ->
  drop 11 (replace_from A new 0 s) = replace_from A new 0 (drop 11 s).
Proof.
  intros Hs. apply startswith_split in Hs.
  change (length (output_name ++ [dq])) with 11%nat in Hs.
  rewrite Hs at 1.
  change A with (sq :: (output_name ++ [sq])).
  rewrite (replace_from_copy sq).
  - by rewrite drop_app_length'.
  - intros H. repeat (apply elem_of_cons in H as [H|H]; [discriminate H|]).
    by apply elem_of_nil in H.
Qed.

Lemma rewrite_is_scan path :
  occurs B path = false ->
  forall n s, (length s <= n)%nat ->
    replace_from B (quoted dq path) 0 (replace_from A (quoted sq path) 0 s)
    = scan_from path 0 s.
Proof.
  intros Hpath. induction n as [|n IH]; intros s Hlen.
  { destruct s; [done|simpl in Hlen; lia]. }
  destruct s as [|c s]; [done|].
  destruct (startswith A (c :: s)) eqn:HA.
  - rewrite (replace_from_hit A) by done.
    cbn [scan_from]. rewrite HA, scan_from_skip.
    rewrite length_literal.
    change (drop 12 (c :: s)) with (drop 11 s).
    change (S (length output_name)) with 11%nat.
    rewrite <- IH by (rewrite length_drop; simpl in Hlen; lia).
    by rewrite second_pass_over_quoted.
  - rewrite replace_from_miss by done.
    assert (startswith B (c :: replace_from A (quoted sq path) 0 s)
            = startswith B (c :: s)) as HB'.
    { rewrite <- (replace_from_miss A (quoted sq path)) by done.
      apply (startswith_replace_from sq). apply sq_not_in_B. }
    destruct (startswith B (c :: s)) eqn:HB.
    + rewrite (replace_from_hit B) by done.
      rewrite length_literal.
      change (drop 12 (c :: ?x)) with (drop 11 x).
      cbn [scan_from]. rewrite HA, HB, scan_from_skip.
      change (S (length output_name)) with 11%nat.
      rewrite <- IH by (rewrite length_drop; simpl in Hlen; lia).
      rewrite first_pass_under_literal; [done|].
      change B with (dq :: (output_name ++ [dq])) in HB.
      cbn [startswith] in HB. by apply andb_prop in HB as [_ HB].
    + rewrite replace_from_miss by done.
      cbn [scan_from]. rewrite HA, HB. f_equal.
      apply IH. simpl in Hlen. lia.
Qed.

End PrepareCode.

(** C3 (as amended). Scanning the code once from the left, every quoted
    [output.stl] (single or double quotes) that begins outside an occurrence
    already replaced is replaced with the workspace's artifact path in the
    same quotes, provided the path does not itself contain the double-quoted
    literal; and code containing neither literal is passed through
    unchanged. *)
Theorem prepare_code_substitutes (path code : str) :
  (occurs (quoted dq output_name) path = false ->
     prepare_code path code = substitute_literals path code)
  /\ (occurs (quoted sq output_name) code = false ->
      occurs (quoted dq output_name) code = false ->
      prepare_code path code = code).
Proof.
  split.
  - intros Hpath. rewrite prepare_code_unfold.
    by apply (rewrite_is_scan path Hpath (length code)).
  - intros HA HB. rewrite prepare_code_unfold.
    rewrite (replace_from_absent _ _ code) by done.
    by apply replace_from_absent.
Qed.

Lemma prepare_code_substitutes_witness :
  prepare_code (lit "/tmp/w/output.stl") (lit "export_stl(part, 'output.stl')")
  = lit "export_stl(part, '/tmp/w/output.stl')"
  /\ prepare_code (lit "/tmp/w/output.stl") (lit "print(42)") = lit "print(42)".
Proof.
  split.
  - rewrite (proj1 (prepare_code_substitutes _ _)); reflexivity.
  - apply (proj2 (prepare_code_substitutes _ _)); reflexivity.
Defined.

(** C3 (as stated) fails. In ['output.stl'output.stl'] the literal occurs
    at offsets 0 and 11; only the first is replaced, the text of the second
    stays. And a workspace path that contains the double-quoted literal is
    itself rewritten by the second pass. *)
Lemma prepare_code_overlap_counterexample :
  (let path := lit "/tmp/w/output.stl" in
   let code := lit "'output.stl'output.stl'" in
   code = [] ++ quoted sq output_name ++ lit "output.stl'"
   /\ code = lit "'output.stl" ++ quoted sq output_name ++ []
   /\ prepare_code path code = lit "'/tmp/w/output.stl'output.stl'"
   /\ ~ replaces_every_occurrence path code)
  /\ (let path := os_path_join (lit "/tmp/" ++ quoted dq output_name) output_name in
      ~ replaces_every_occurrence path (quoted sq output_name)).
Proof.
  split.
  - repeat split; try reflexivity.
    intros H.
    specialize (H sq (lit "'output.stl") [] (or_introl eq_refl) eq_refl).
    vm_compute in H. discriminate H.
  - intros path H.
    specialize (H sq [] [] (or_introl eq_refl) eq_refl).
    vm_compute in H. discriminate H.
Qed.

(** ** Base64 *)

Section Base64Facts.

Lemma list_ind3 {X} (P : list X -> Prop) :
  P [] -> (forall a, P [a]) -> (forall a b, P [a; b]) ->
  (forall a b c l, P l -> P (a :: b :: c :: l)) ->
  forall l, P l.
Proof.
  intros H0 H1 H2 H3 l.
  enough (P l /\ (forall a, P (a :: l)) /\ (forall a b, P (a :: b :: l))) by tauto.
  induction l as [|x l (IH0 & IH1 & IH2)]; auto.
Qed.

Lemma below_64 (P : N -> bool) :
  forallb (fun i => P (N.of_nat i)) (seq 0 64) = true ->
  forall n, n < 64 -> P n = true.
Proof.
  intros H n Hn. rewrite forallb_forall in H.
  specialize (H (N.to_nat n)). rewrite N2Nat.id in H.
  apply H, in_seq. lia.
Qed.

Lemma value_digit n : n < 64 -> value (Byte.to_N (digit n)) = Some n.
Proof.
  intros Hn.
  pose proof (below_64
    (fun n => match value (Byte.to_N (digit n)) with
              | Some m => m =? n
              | None => false
              end) eq_refl n Hn) as H.
  cbv beta in H. destruct (value _) as [m|]; [|done].
  by apply N.eqb_eq in H as ->.
Qed.

Lemma digit_not_pad n : n < 64 -> (Byte.to_N (digit n) =? pad_char) = false.
Proof.
  intros Hn.
  apply negb_true_iff.
  apply (below_64 (fun n => negb (Byte.to_N (digit n) =? pad_char)));
    [by vm_compute|done].
Qed.

Lemma digit_ascii n : n < 64 -> Byte.to_N (digit n) < 128.
Proof.
  intros Hn. apply N.ltb_lt.
  apply (below_64 (fun n => Byte.to_N (digit n) <? 128)); [by vm_compute|done].
Qed.

Lemma byte_of_N_to_N b : byte_of_N (Byte.to_N b) = b.
Proof.
  unfold byte_of_N. pose proof (Byte.to_N_bounded b).
  rewrite N.mod_small by lia. by rewrite Byte.of_to_N.
Qed.

Lemma byte_bound b : Byte.to_N b < 256.
Proof. pose proof (Byte.to_N_bounded b). lia. Qed.

End Base64Facts.

Section Base64RoundTrip.

Local Ltac div_mod_lia :=
  zify; Z.to_euclidean_division_equations; lia.

(** The four 6-bit groups of three bytes, and back. *)
Lemma sextet_bounds a b c :
  a < 256 -> b < 256 -> c < 256 ->
  a / 4 < 64 /\ a mod 4 * 16 + b / 16 < 64
  /\ b mod 16 * 4 + c / 64 < 64 /\ c mod 64 < 64
  /\ a mod 4 * 16 < 64 /\ b mod 16 * 4 < 64.
Proof. intros. repeat split; div_mod_lia. Qed.

Lemma regroup_first a b :
  b < 256 -> a / 4 * 4 + (a mod 4 * 16 + b / 16) / 16 = a.
Proof. intros. div_mod_lia. Qed.

Lemma regroup_second a b c :
  b < 256 -> c < 256 ->
  (a mod 4 * 16 + b / 16) mod 16 * 16 + (b mod 16 * 4 + c / 64) / 4 = b.
Proof. intros. div_mod_lia. Qed.

Lemma regroup_third b c :
  c < 256 -> (b mod 16 * 4 + c / 64) mod 4 * 64 + c mod 64 = c.
Proof. intros. div_mod_lia. Qed.

Lemma regroup_first_tail a : a / 4 * 4 + a mod 4 * 16 / 16 = a.
Proof. div_mod_lia. Qed.

Lemma regroup_second_tail a b :
  b < 256 -> (a mod 4 * 16 + b / 16) mod 16 * 16 + b mod 16 * 4 / 4 = b.
Proof. intros. div_mod_lia. Qed.

(** Decoding what [b64encode] produced gives the bytes back. *)
Lemma b64decode_b64encode data :
  b64decode (map Byte.to_N (b64encode data)) = Some data.
Proof.
  induction data as [|a|a b|a b c l IH] using list_ind3.
  - done.
  - pose proof (byte_bound a).
    destruct (sextet_bounds (Byte.to_N a) 0 0) as (?&?&?&?&?&?); [lia..|].
    cbn [b64encode map b64decode].
    rewrite !value_digit by done. cbn [mbind option_bind].
    change (Byte.to_N pad =? pad_char) with true. cbn [andb].
    rewrite bool_decide_eq_true_2 by done.
    by rewrite regroup_first_tail, byte_of_N_to_N.
  - pose proof (byte_bound a). pose proof (byte_bound b).
    destruct (sextet_bounds (Byte.to_N a) (Byte.to_N b) 0) as (?&?&?&?&?&?); [lia..|].
    cbn [b64encode map b64decode].
    rewrite !value_digit by done. cbn [mbind option_bind].
    rewrite digit_not_pad by done.
    change (Byte.to_N pad =? pad_char) with true.
    rewrite bool_decide_eq_true_2 by done.
    rewrite regroup_first, regroup_second_tail by done.
    by rewrite !byte_of_N_to_N.
  - pose proof (byte_bound a). pose proof (byte_bound b). pose proof (byte_bound c).
    destruct (sextet_bounds (Byte.to_N a) (Byte.to_N b) (Byte.to_N c))
      as (?&?&?&?&?&?); [lia..|].
    cbn [b64encode map]. cbn [b64decode]. fold b64decode.
    rewrite !value_digit by done. cbn [mbind option_bind].
    rewrite !digit_not_pad by done.
    rewrite IH. cbn [mbind option_bind].
    rewrite regroup_first, regroup_second, regroup_third by done.
    by rewrite !byte_of_N_to_N.
Qed.

(** The encoder's output is ASCII, so decoding it as UTF-8 gives the
    same characters. *)
Lemma b64encode_ascii data :
  Forall (fun x => Byte.to_N x < 128) (b64encode data).
Proof.
  assert (Byte.to_N pad < 128) as Hpad by done.
  induction data as [|a|a b|a b c l IH] using list_ind3.
  - constructor.
  - pose proof (byte_bound a).
    destruct (sextet_bounds (Byte.to_N a) 0 0) as (?&?&?&?&?&?); [lia..|].
    cbn [b64encode]. repeat constructor; auto using digit_ascii.
  - pose proof (byte_bound a). pose proof (byte_bound b).
    destruct (sextet_bounds (Byte.to_N a) (Byte.to_N b) 0) as (?&?&?&?&?&?); [lia..|].
    cbn [b64encode]. repeat constructor; auto using digit_ascii.
  - pose proof (byte_bound a). pose proof (byte_bound b). pose proof (byte_bound c).
    destruct (sextet_bounds (Byte.to_N a) (Byte.to_N b) (Byte.to_N c))
      as (?&?&?&?&?&?); [lia..|].
    cbn [b64encode]. repeat (constructor; auto using digit_ascii).
Qed.

Lemma utf8_decode_ascii data :
  Forall (fun x => Byte.to_N x < 128) data ->
  utf8_decode data = Some (map Byte.to_N data).
Proof.
  unfold utf8_decode. induction 1 as [|x l Hx _ IH]; [done|].
  cbn [map utf8_decode_values].
  apply N.ltb_lt in Hx. rewrite Hx, IH. done.
Qed.

End Base64RoundTrip.

(** ** Paths of the workspace *)

Lemma os_path_join_well_named d b :
  well_named d -> startswith [sep] b = false -> os_path_join d b = d ++ sep :: b.
Proof.
  intros (c & Hlast & Hc) Hb. unfold os_path_join. rewrite Hb.
  destruct d as [|x d]; [done|].
  destruct (decide _) as [Heq|]; [|done].
  rewrite Hlast in Heq. congruence.
Qed.

Lemma within_below d b : within d (d ++ sep :: b) = true.
Proof.
  unfold within. apply orb_true_iff. right.
  rewrite (cons_middle sep d b), app_assoc. apply startswith_app.
Qed.

Lemma within_self d : within d d = true.
Proof. unfold within. by rewrite bool_decide_eq_true_2. Qed.

Lemma script_path_within d : well_named d -> within d (script_path d) = true.
Proof.
  intros Hd. unfold script_path.
  rewrite os_path_join_well_named by done. apply within_below.
Qed.

Lemma output_path_within d : well_named d -> within d (output_path d) = true.
Proof.
  intros Hd. unfold output_path.
  rewrite os_path_join_well_named by done. apply within_below.
Qed.

Lemma rmtree_gone d w p : within d p = true -> files (rmtree d w) !! p = None.
Proof.
  intros Hp. unfold rmtree. cbn [files set_files].
  apply map_lookup_filter_None. right. intros x _ Hx. cbn in Hx. congruence.
Qed.

Lemma rmtree_kept d w p :
  within d p = false -> files (rmtree d w) !! p = files w !! p.
Proof.
  intros Hp. unfold rmtree. cbn [files set_files].
  destruct (files w !! p) as [x|] eqn:E.
  - by apply map_lookup_filter_Some_2.
  - apply map_lookup_filter_None. by left.
Qed.

(** ** The generation endpoint *)

Section Handler.

Variable python : list str -> gmap str node -> behaviour.
Variable tmpdir : str.
Variable builtin_text : exn -> str.

Local Ltac step :=
  unfold generate_cad, self_test, with_TemporaryDirectory, finally, bind, try_except,
    write_text, subprocess_run, os_path_exists, read_bytes, decode_utf8, py_print, ret;
  fold (script_path tmpdir) (output_path tmpdir) (test_path tmpdir);
  cbn [files children request_count sys_stdout
       set_files set_children set_request_count
       returncode stderr stdout fst snd Nat.pred negb andb is_TimeoutExpired].

Local Ltac started_in H data :=
  let E := fresh "Hencode" in
  unfold launched, launched_test in H;
  destruct (utf8_encode _) as [data|] eqn:E; [|discriminate H];
  injection H as H.

(** The script cannot be encoded: nothing is run and the encoder's
    exception leaves the handler. *)
Lemma generate_cad_unwritten request w i :
  utf8_encode (prepare_code (output_path tmpdir) (code request)) = inr i ->
  (generate_cad python tmpdir builtin_text request w).1
  = Raise (UnicodeEncodeError (lit "utf-8")
             (prepare_code (output_path tmpdir) (code request)) i).
Proof. intros H. step. rewrite H. by step. Qed.

(** Once the script is written, every path ends in a response. *)
Lemma generate_cad_returns_once_written request w b :
  launched python tmpdir request w = Some b ->
  exists r, (generate_cad python tmpdir builtin_text request w).1 = Return r.
Proof.
  intros H. started_in H data. step. rewrite Hencode. step.
  unfold staged in H. rewrite H.
  destruct b as [e|fs_at [[d [r|e]]|]]; step.
  - destruct (is_TimeoutExpired e); eauto.
  - destruct (d <=? 45); step; [|eauto].
    destruct (returncode r =? 0)%Z; step; [|eauto].
    case_bool_decide; step; [|eauto].
    destruct (fs_at d !! output_path tmpdir) as [[data'| |]|]; step; eauto.
    rewrite utf8_decode_ascii by apply b64encode_ascii.
    destruct (first_refused _ _ _); step; eauto.
  - destruct (d <=? 45); step; [destruct (is_TimeoutExpired e)|]; eauto.
  - eauto.
Qed.

(** Every response has exactly one of the two shapes. *)
Lemma generate_cad_response_shape request w r :
  (generate_cad python tmpdir builtin_text request w).1 = Return r -> one_shape r.
Proof.
  step. destruct (utf8_encode _) as [data|i]; step; [|discriminate].
  destruct (python _ _) as [e|fs_at [[d [r'|e]]|]]; step.
  - destruct (is_TimeoutExpired e); step; intros [= <-];
      right; cbn; eauto.
  - destruct (d <=? 45); step; [|intros [= <-]; right; cbn; eauto].
    destruct (returncode r' =? 0)%Z; step; [|intros [= <-]; right; cbn; eauto].
    case_bool_decide; step; [|intros [= <-]; right; cbn; eauto].
    destruct (fs_at d !! output_path tmpdir) as [[data'| |]|]; step;
      [|intros [= <-]; right; cbn; eauto..].
    rewrite utf8_decode_ascii by apply b64encode_ascii.
    destruct (first_refused _ _ _); step; intros [= <-];
      [right|left]; cbn; eauto.
  - destruct (d <=? 45); step; [destruct (is_TimeoutExpired e); step|];
      intros [= <-]; right; cbn; eauto.
  - intros [= <-]. right. cbn. eauto.
Qed.




(** The handler reports success only from the one place where it has
    read and encoded the artifact. *)
Lemma generate_cad_success_inversion request w resp :
  (generate_cad python tmpdir builtin_text request w).1 = Return resp ->
  success resp = true ->
  exists fs_at d cp data,
    launched python tmpdir request w = Some (Runs fs_at (Some (d, Return cp)))
    /\ d <= 45
    /\ returncode cp = 0%Z
    /\ fs_at d !! output_path tmpdir = Some (File data)
    /\ first_refused (sys_stdout w) 0 (success_line (length data)) = None
    /\ stl_data resp = Some (map Byte.to_N (b64encode data)).
Proof.
  unfold launched. step.
  destruct (utf8_encode _) as [script|i]; step; [|discriminate].
  fold (staged tmpdir script w).
  destruct (python _ _) as [e|fs_at [[d [cp|e]]|]]; step.
  - destruct (is_TimeoutExpired e); step; by intros [= <-].
  - destruct (N.leb_spec d 45); step; [|by intros [= <-]].
    destruct (Z.eqb_spec (returncode cp) 0); step; [|by intros [= <-]].
    case_bool_decide; step; [|by intros [= <-]].
    destruct (fs_at d !! output_path tmpdir) as [[data| |]|] eqn:Hout; step;
      [|by intros [= <-]..].
    rewrite utf8_decode_ascii by apply b64encode_ascii.
    destruct (first_refused _ _ _) eqn:Hprint; step; [by intros [= <-]|].
    intros [= <-] _. by exists fs_at, d, cp, data.
  - destruct (d <=? 45); step; [destruct (is_TimeoutExpired e); step|];
      by intros [= <-].
  - by intros [= <-].
Qed.

(** C8. Round trip: whatever bytes the subprocess left at the artifact
    path, every success response to that run carries in [stl_data] a
    string that base64-decodes to exactly those bytes. *)
Theorem generate_cad_round_trip request w fs_at d o data resp :
  launched python tmpdir request w = Some (Runs fs_at (Some (d, o))) ->
  fs_at d !! output_path tmpdir = Some (File data) ->
  (generate_cad python tmpdir builtin_text request w).1 = Return resp ->
  success resp = true ->
  exists stl_b64,
    stl_data resp = Some stl_b64 /\ b64decode stl_b64 = Some data.
Proof.
  intros H Hout Hresp Hok.
  destruct (generate_cad_success_inversion _ _ _ Hresp Hok)
    as (fs_at' & d' & cp & data' & H' & _ & _ & Hout' & _ & Hstl).
  rewrite H in H'. injection H' as <- <- _.
  rewrite Hout in Hout'. injection Hout' as <-.
  eexists. split; [exact Hstl|]. apply b64decode_b64encode.
Qed.


(** The state a call leaves: the workspace is removed from whatever the
    body left, and no child is added. The body leaves the truncated
    script (it could not be encoded), the staged workspace (the child
    could not be run), or the file system of the child at some time. *)
Lemma generate_cad_final_state request w :
  exists F,
    (generate_cad python tmpdir builtin_text request w).2 = rmtree tmpdir (set_files F w)
    /\ (F = <[script_path tmpdir := File []]> (<[tmpdir := Dir]> (files w))
        \/ exists data,
             utf8_encode (prepare_code (output_path tmpdir) (code request)) = inl data
             /\ (F = staged tmpdir data w
                 \/ exists fs_at finish t,
                      python [lit "python"; script_path tmpdir] (staged tmpdir data w)
                      = Runs fs_at finish
                      /\ F = fs_at t)).
Proof.
  step. destruct (utf8_encode _) as [data|i]; step.
  2: { eexists. split; [reflexivity|]. by left. }
  fold (staged tmpdir data w).
  destruct (python _ _) as [e|fs_at [[d [r'|e]]|]] eqn:Hrun; step.
  - exists (staged tmpdir data w).
    split; [|right; exists data; split; [done|by left]].
    by destruct (is_TimeoutExpired e).
  - destruct (d <=? 45); step.
    + exists (fs_at d).
      split; [|right; exists data; split; [done|right; eauto]].
      destruct (returncode r' =? 0)%Z; step; [|done].
      case_bool_decide; step; [|done].
      destruct (fs_at d !! output_path tmpdir) as [[data'| |]|]; step; [|done..].
      destruct (utf8_decode _); step; [|done].
      by destruct (first_refused _ _ _).
    + exists (fs_at 45).
      split; [done|right; exists data; split; [done|right; eauto]].
  - destruct (d <=? 45); step.
    + exists (fs_at d).
      split; [|right; exists data; split; [done|right; eauto]].
      by destruct (is_TimeoutExpired e).
    + exists (fs_at 45).
      split; [done|right; exists data; split; [done|right; eauto]].
  - exists (fs_at 45).
    split; [done|right; exists data; split; [done|right; eauto]].
Qed.





(** C7 (as amended). On every path on which the handler hands back a
    response (success, any failure, timeout) and on the path on which the
    script cannot be written, the workspace directory and everything below
    it, script and artifact among them, no longer exist afterwards; and
    the handler itself touches nothing outside the workspace: when the
    script it ran left the rest of the file system alone, every path
    outside the workspace is as it was before the call. *)
Theorem workspace_removed request w :
  well_named tmpdir ->
  (forall resp,
     (generate_cad python tmpdir builtin_text request w).1 = Return resp ->
     forall p, within tmpdir p = true ->
       files (generate_cad python tmpdir builtin_text request w).2 !! p = None)
  /\ (forall i,
        utf8_encode (prepare_code (output_path tmpdir) (code request)) = inr i ->
        forall p, within tmpdir p = true ->
          files (generate_cad python tmpdir builtin_text request w).2 !! p = None)
  /\ within tmpdir tmpdir = true
  /\ within tmpdir (script_path tmpdir) = true
  /\ within tmpdir (output_path tmpdir) = true
  /\ ((forall data,
         utf8_encode (prepare_code (output_path tmpdir) (code request)) = inl data ->
         confined tmpdir
           (python [lit "python"; script_path tmpdir] (staged tmpdir data w))
           (staged tmpdir data w)) ->
      forall p, within tmpdir p = false ->
        files (generate_cad python tmpdir builtin_text request w).2 !! p
        = files w !! p).
Proof.
  intros Hname.
  destruct (generate_cad_final_state request w) as (F & -> & HF).
  split; [|split; [|split; [|split; [|split]]]].
  - intros resp _ p Hp. by apply rmtree_gone.
  - intros i _ p Hp. by apply rmtree_gone.
  - apply within_self.
  - by apply script_path_within.
  - by apply output_path_within.
  - intros Hconf p Hp. rewrite rmtree_kept by done. cbn [files set_files].
    assert (p <> tmpdir) as Hd.
    { intros ->. rewrite within_self in Hp. discriminate. }
    assert (p <> script_path tmpdir) as Hs.
    { intros ->. rewrite script_path_within in Hp by done. discriminate. }
    assert (forall data, staged tmpdir data w !! p = files w !! p) as Hst.
    { intros data. unfold staged. by rewrite !lookup_insert_ne. }
    destruct HF as [->|(data & Hdata & [->|(fs_at & finish & t & Hrun & ->)])].
    + by rewrite !lookup_insert_ne.
    + apply Hst.
    + specialize (Hconf data Hdata).
      rewrite Hrun in Hconf. cbn in Hconf. rewrite Hconf by done. apply Hst.
Qed.

(** C1 (the code departs from it). A script text holding a lone
    surrogate cannot be encoded for the script file; the write sits
    outside the [try], so the encoder's exception leaves the handler
    instead of becoming the [error] of a response. *)
Theorem generate_cad_raises_on_unencodable_script w :
  (generate_cad python tmpdir builtin_text {| code := [0xD800] |} w).1
  = Raise (UnicodeEncodeError (lit "utf-8") [0xD800] 0).
Proof. exact (generate_cad_unwritten {| code := [0xD800] |} w 0%nat eq_refl). Qed.

(** C2 (the code departs from it). For the same script text the caller
    receives no response at all, of neither shape. *)
Theorem generate_cad_no_response_on_unencodable_script w :
  delivered (generate_cad python tmpdir builtin_text {| code := [0xD800] |} w).1 = None.
Proof.
  by rewrite (generate_cad_unwritten {| code := [0xD800] |} w 0%nat eq_refl).
Qed.

(** The handler raises exactly when the script cannot be written. *)
Lemma generate_cad_raises_iff request w :
  (exists e, (generate_cad python tmpdir builtin_text request w).1 = Raise e)
  <-> launched python tmpdir request w = None.
Proof.
  split.
  - intros [e He]. destruct (launched python tmpdir request w) as [b|] eqn:Hb; [|done].
    destruct (generate_cad_returns_once_written _ _ _ Hb) as [r Hr]. congruence.
  - unfold launched. destruct (utf8_encode _) as [|i] eqn:He; [done|].
    intros _. eexists. by apply generate_cad_unwritten.
Qed.

(** The entry log line (line 79) comes before everything else: when the
    console takes it the route is the handler, and when not, its exception
    leaves the route with the machine untouched. *)
Lemma cad_generate_logged_entry request w :
  cad_generate_logged python tmpdir builtin_text request w
  = match first_refused (sys_stdout w) 0 entry_line with
    | None => generate_cad python tmpdir builtin_text request w
    | Some i =>
        (Raise (UnicodeEncodeError (encoding (sys_stdout w)) entry_line i), w)
    end.
Proof.
  unfold cad_generate_logged, bind, py_print.
  destruct (first_refused _ _ _); [done|].
  by destruct (generate_cad _ _ _ _ _) as [[r|e] w'].
Qed.

End Handler.

(** *** The statements at work *)

Section HandlerWitnesses.

Import Scenario.

Lemma tmp_well_named : well_named tmp.
Proof. eexists. split; [reflexivity|discriminate]. Defined.

Lemma exits_confined d rc err written argv fs :
  confined tmp (exits d rc err written argv fs) fs.
Proof.
  intros t p Hp. destruct written as [data|]; [|reflexivity].
  apply lookup_insert_ne. intros <-. discriminate Hp.
Defined.



(** A script that writes five bytes, answered with a success. *)
Lemma generate_cad_round_trip_witness :
  exists stl_b64,
    Some (lit "c29saWQ=") = Some stl_b64
    /\ b64decode stl_b64 = Some (list_byte_of_string "solid").
Proof.
  eapply (generate_cad_round_trip
            (exits 2 0 [] (Some (list_byte_of_string "solid"))) tmp text cube idle
            _ 2 _ (list_byte_of_string "solid")
            {| success := true; stl_data := Some (lit "c29saWQ="); error := None |});
    reflexivity.
Defined.



(** The cube script, well behaved: the artifact is gone afterwards and
    the server's own file is untouched; and the script that cannot be
    written, whose truncated file is gone as well. *)
Lemma workspace_removed_witness :
  files (generate_cad (exits 2 0 [] (Some (list_byte_of_string "solid")))
           tmp text cube idle).2 !! artifact = None
  /\ files (generate_cad (exits 2 0 [] (Some (list_byte_of_string "solid")))
             tmp text cube idle).2 !! lit "/srv/app/streamlit_app.py"
     = Some (File [])
  /\ files (generate_cad loops tmp text lone_surrogate idle).2 !! script_path tmp
     = None.
Proof.
  destruct (workspace_removed
              (exits 2 0 [] (Some (list_byte_of_string "solid")))
              tmp text cube idle tmp_well_named)
    as (Hgone & _ & _ & _ & _ & Hkept).
  destruct (workspace_removed loops tmp text lone_surrogate idle tmp_well_named)
    as (_ & Hunwritten & _ & _ & _ & _).
  split; [|split].
  - eapply Hgone; reflexivity.
  - rewrite Hkept; [reflexivity| |reflexivity].
    intros data _. apply exits_confined.
  - eapply (Hunwritten 0%nat); reflexivity.
Defined.

(** The two timeouts are separate: a script needing 30 seconds passes the
    endpoint and is cut off by the self-test. *)
Example thirty_seconds :
  (generate_cad (exits 30 0 [] (Some [])) tmp text cube idle).1
  = Return {| success := true; stl_data := Some []; error := None |}
  /\ (self_test (exits 30 0 [] (Some [])) tmp idle).1
     = Return (TestError (TimeoutExpired [lit "python"; test_path tmp] 10)).
Proof. split; reflexivity. Qed.

End HandlerWitnesses.




(** C7 (as stated) fails. A script that builds its file name at run time
    writes into the server's working directory; that file did not exist
    before the call, lies outside the workspace and is still there after
    the call, while the response reports the artifact as not produced. *)
Lemma stray_artifact_counterexample :
  within Scenario.tmp Scenario.stray = false
  /\ files Scenario.idle !! Scenario.stray = None
  /\ (generate_cad Scenario.strays Scenario.tmp Scenario.text
        Scenario.roaming Scenario.idle).1
     = Return {| success := false; stl_data := None;
                 error := Some msg_not_generated |}
  /\ files (generate_cad Scenario.strays Scenario.tmp Scenario.text
             Scenario.roaming Scenario.idle).2 !! Scenario.stray
     = Some (File (list_byte_of_string "solid"))
  /\ ~ leaves_no_trace Scenario.strays Scenario.tmp Scenario.text
         Scenario.roaming Scenario.idle.
Proof.
  assert (files (generate_cad Scenario.strays Scenario.tmp Scenario.text
                   Scenario.roaming Scenario.idle).2 !! Scenario.stray
          = Some (File (list_byte_of_string "solid"))) as Hleft
    by (vm_compute; reflexivity).
  split; [reflexivity|split; [reflexivity|split; [|split; [exact Hleft|]]]].
  - vm_compute. reflexivity.
  - intros H. specialize (H Scenario.stray eq_refl eq_refl).
    rewrite Hleft in H. discriminate H.
Qed.

(** ** The readiness probe *)

Section Health.

Variable import_module : str -> outcome unit.

Lemma health_ready :
  import_module (lit "build123d") = Return tt ->
  health import_module
  = Return {| status := lit "healthy";
              services := <[lit "cad" := lit "ready"]> ∅ |}.
Proof.
  intros H. unfold health. rewrite H.
  by rewrite lookup_insert_eq, bool_decide_eq_true_2.
Qed.

Lemma health_missing e :
  import_module (lit "build123d") = Raise e ->
  is_ImportError e = true ->
  health import_module
  = Return {| status := lit "degraded";
              services := <[lit "cad" := lit "missing"]> ∅ |}.
Proof.
  intros H He. unfold health. rewrite H, He.
  rewrite lookup_insert_eq, bool_decide_eq_false_2; [done|].
  intros Heq. vm_compute in Heq. discriminate Heq.
Qed.

Lemma health_raises e :
  import_module (lit "build123d") = Raise e ->
  is_ImportError e = false ->
  health import_module = Raise e.
Proof. intros H He. unfold health. by rewrite H, He. Qed.

(** The probe has three outcomes, not two. *)
Lemma health_outcomes :
  health import_module
  = Return {| status := lit "healthy";
              services := <[lit "cad" := lit "ready"]> ∅ |}
  \/ health import_module
     = Return {| status := lit "degraded";
                 services := <[lit "cad" := lit "missing"]> ∅ |}
  \/ exists e, is_ImportError e = false /\ health import_module = Raise e.
Proof.
  destruct (import_module (lit "build123d")) as [[]|e] eqn:H.
  - left. by apply health_ready.
  - destruct (is_ImportError e) eqn:He.
    + right; left. by eapply health_missing.
    + right; right. exists e. split; [done|]. by apply health_raises.
Qed.

End Health.

(** C9 (the code departs from it). When importing the geometry library
    raises anything but an [ImportError] (a [ValueError] from a binary
    that does not match, say), the probe reports neither outcome: the
    exception leaves [health]. *)
Theorem health_raises_on_broken_import (type_name message : str) :
  health (fun _ => Raise (Fault type_name message))
  = Raise (Fault type_name message).
Proof. reflexivity. Qed.

(** * Further properties of the code *)

(** ** Text the codec accepts *)

Section Encodable.

Lemma utf8_encode_char_encodable c :
  encodable c = true -> exists bs, utf8_encode_char c = Some bs.
Proof.
  unfold encodable, utf8_encode_char.
  intros [Hs Hc]%andb_prop. apply negb_true_iff in Hs. rewrite Hs, Hc.
  repeat case_match; eauto.
Qed.

Lemma utf8_encode_char_refused c :
  encodable c = false -> utf8_encode_char c = None.
Proof.
  unfold encodable, utf8_encode_char, is_surrogate.
  intros H. repeat case_match; try done; exfalso.
  all: repeat match goal with
         | H : (_ <? _) = true |- _ => apply N.ltb_lt in H
         | H : (_ <? _) = false |- _ => apply N.ltb_ge in H
         | H : (_ <=? _) = true |- _ => apply N.leb_le in H
         | H : (_ <=? _) = false |- _ => apply N.leb_gt in H
         | H : _ && _ = true |- _ => apply andb_prop in H as [? ?]
         | H : _ && _ = false |- _ => apply andb_false_iff in H as [?|?]
         | H : negb _ = false |- _ => apply negb_false_iff in H
         end; lia.
Qed.

Lemma utf8_encode_from_encodable i s :
  forallb encodable s = true -> exists data, utf8_encode_from i s = inl data.
Proof.
  revert i; induction s as [|c s IH]; intros i; cbn [forallb utf8_encode_from].
  - eauto.
  - intros [Hc Hs]%andb_prop.
    destruct (utf8_encode_char_encodable c Hc) as [bs ->].
    destruct (IH (S i) Hs) as [data ->]. eauto.
Qed.

Lemma replace_from_forallb (P : N -> bool) old new k s :
  forallb P new = true -> forallb P s = true ->
  forallb P (replace_from old new k s) = true.
Proof.
  intros Hnew. revert k; induction s as [|c s IH]; intros k; [done|].
  cbn [forallb replace_from]. intros [Hc Hs]%andb_prop.
  destruct k as [|k]; [|by apply IH].
  destruct (startswith old (c :: s)).
  - rewrite forallb_app, Hnew. by apply IH.
  - cbn [forallb]. rewrite Hc. by apply IH.
Qed.

Lemma quoted_forallb (P : N -> bool) q s :
  P q = true -> forallb P s = true -> forallb P (quoted q s) = true.
Proof.
  intros Hq Hs. unfold quoted. cbn [forallb].
  rewrite Hq, forallb_app, Hs. cbn. by rewrite Hq.
Qed.

Lemma os_path_join_forallb (P : N -> bool) a b :
  P sep = true -> forallb P a = true -> forallb P b = true ->
  forallb P (os_path_join a b) = true.
Proof.
  intros Hsep Ha Hb. unfold os_path_join.
  destruct (startswith [sep] b); [done|].
  destruct a as [|x a]; [done|].
  destruct (decide _); rewrite forallb_app, Ha; [done|].
  cbn [forallb]. by rewrite Hsep, Hb.
Qed.

Lemma prepare_code_encodable path code :
  forallb encodable path = true -> forallb encodable code = true ->
  forallb encodable (prepare_code path code) = true.
Proof.
  intros Hp Hc. rewrite prepare_code_unfold.
  apply replace_from_forallb; [by apply quoted_forallb|].
  apply replace_from_forallb; [by apply quoted_forallb|done].
Qed.

End Encodable.

(** ** The script file *)

Section ScriptFile.

Local Ltac div_mod_lia :=
  zify; Z.to_euclidean_division_equations; lia.

Local Ltac decide_tests :=
  repeat match goal with
         | |- context [?a <? ?b] =>
             destruct (N.ltb_spec a b); [|try (exfalso; div_mod_lia)];
             try (exfalso; div_mod_lia)
         | |- context [?a <=? ?b] =>
             destruct (N.leb_spec a b); [|try (exfalso; div_mod_lia)];
             try (exfalso; div_mod_lia)
         end.

Lemma to_N_byte_of_N x : x < 256 -> Byte.to_N (byte_of_N x) = x.
Proof.
  intros Hx. unfold byte_of_N. rewrite N.mod_small by done.
  destruct (Byte.of_N x) as [b|] eqn:Hb.
  - by apply Byte.to_of_N.
  - apply Byte.of_N_None_iff in Hb. lia.
Qed.

Lemma utf8_decode_encode_char c bs rest :
  utf8_encode_char c = Some bs ->
  utf8_decode_values (map Byte.to_N bs ++ rest)
  = cons c <$> utf8_decode_values rest.
Proof.
  unfold utf8_encode_char, is_surrogate.
  destruct (N.ltb_spec c 0x80).
  { intros [= <-]. cbn [map app]. rewrite to_N_byte_of_N by lia.
    cbn [utf8_decode_values]. by decide_tests. }
  destruct (N.ltb_spec c 0x800).
  { intros [= <-]. cbn [map app]. rewrite !to_N_byte_of_N by div_mod_lia.
    cbn [utf8_decode_values]. unfold continuation. decide_tests.
    cbn [andb]. do 2 f_equal. div_mod_lia. }
  destruct (N.leb_spec 0xD800 c); destruct (N.leb_spec c 0xDFFF);
    cbn [andb]; try done.
  all: destruct (N.ltb_spec c 0x10000).
  all: try (intros [= <-]; cbn [map app];
            rewrite !to_N_byte_of_N by div_mod_lia;
            cbn [utf8_decode_values]; unfold continuation, is_surrogate;
            decide_tests; cbn [andb negb]; do 2 f_equal; div_mod_lia).
  all: destruct (N.ltb_spec c 0x110000); try done.
  all: intros [= <-]; cbn [map app];
       rewrite !to_N_byte_of_N by div_mod_lia;
       cbn [utf8_decode_values]; unfold continuation;
       decide_tests; cbn [andb]; do 2 f_equal; div_mod_lia.
Qed.

Lemma utf8_decode_encode_from i s data :
  utf8_encode_from i s = inl data -> utf8_decode data = Some s.
Proof.
  unfold utf8_decode. revert i data; induction s as [|c s IH]; intros i data.
  - by intros [= <-].
  - cbn [utf8_encode_from].
    destruct (utf8_encode_char c) as [bs|] eqn:Hc; [|done].
    destruct (utf8_encode_from (S i) s) as [r|] eqn:Hs; [|done].
    intros [= <-]. rewrite map_app, (utf8_decode_encode_char c bs) by done.
    by rewrite (IH _ _ Hs).
Qed.

(** X1. Writing the script (lines 89-90) is a round trip: when the write
    returns, the file holds bytes that decode, as utf-8, to exactly the
    text written; when the text has no utf-8 form, the file is left
    behind empty. *)
Theorem write_text_round_trip (path text : str) (w : world) :
  match (write_text path text w).1 with
  | Return _ =>
      exists data,
        files (write_text path text w).2 !! path = Some (File data)
        /\ utf8_decode data = Some text
  | Raise _ => files (write_text path text w).2 !! path = Some (File [])
  end.
Proof.
  unfold write_text.
  destruct (utf8_encode text) as [data|i] eqn:He; cbn [fst snd files set_files].
  - exists data. split; [apply lookup_insert_eq|].
    by apply (utf8_decode_encode_from 0).
  - apply lookup_insert_eq.
Qed.

End ScriptFile.

(** ** More on the generation endpoint *)

Section Payload.

Lemma length_b64encode data :
  length (b64encode data) = (4 * ((length data + 2) / 3))%nat.
Proof.
  induction data as [|a|a b|a b c l IH] using list_ind3; try reflexivity.
  cbn [b64encode length]. rewrite IH.
  replace (S (S (S (length l))) + 2)%nat with (1 * 3 + (length l + 2))%nat by lia.
  rewrite Nat.div_add_l by done. lia.
Qed.

Lemma b64encode_alphabet data :
  Forall (fun c => is_Some (value c) \/ c = pad_char)
         (map Byte.to_N (b64encode data)).
Proof.
  assert (forall n, n < 64 ->
            is_Some (value (Byte.to_N (digit n))) \/ Byte.to_N (digit n) = pad_char)
    as Hdigit by (intros n Hn; left; rewrite value_digit by done; eauto).
  induction data as [|a|a b|a b c l IH] using list_ind3.
  - constructor.
  - pose proof (byte_bound a).
    destruct (sextet_bounds (Byte.to_N a) 0 0) as (?&?&?&?&?&?); [lia..|].
    cbn [b64encode map].
    repeat (apply Forall_cons_2; [first [by apply Hdigit|by right]|]). constructor.
  - pose proof (byte_bound a). pose proof (byte_bound b).
    destruct (sextet_bounds (Byte.to_N a) (Byte.to_N b) 0) as (?&?&?&?&?&?); [lia..|].
    cbn [b64encode map].
    repeat (apply Forall_cons_2; [first [by apply Hdigit|by right]|]). constructor.
  - pose proof (byte_bound a). pose proof (byte_bound b). pose proof (byte_bound c).
    destruct (sextet_bounds (Byte.to_N a) (Byte.to_N b) (Byte.to_N c))
      as (?&?&?&?&?&?); [lia..|].
    cbn [b64encode map].
    repeat (apply Forall_cons_2; [first [by apply Hdigit|by right]|]). exact IH.
Qed.

End Payload.

Section HandlerMore.

Variable python : list str -> gmap str node -> behaviour.
Variable tmpdir : str.
Variable builtin_text : exn -> str.

Local Ltac step :=
  unfold generate_cad, with_TemporaryDirectory, finally, bind, try_except,
    write_text, subprocess_run, os_path_exists, read_bytes, decode_utf8, py_print, ret;
  fold (script_path tmpdir) (output_path tmpdir);
  cbn [files children request_count sys_stdout
       set_files set_children set_request_count
       returncode stderr stdout fst snd Nat.pred negb andb is_TimeoutExpired].

Local Ltac started_in H data :=
  let E := fresh "Hencode" in
  unfold launched in H;
  destruct (utf8_encode _) as [data|] eqn:E; [|discriminate H];
  injection H as H.

(** X2. For a script text and a temporary directory name without
    surrogates the rewritten script always has a utf-8 form: the script
    write raises no [UnicodeEncodeError], and the bytes written decode back
    to the rewritten script. *)
Theorem script_of_encodable_text_is_written request :
  forallb encodable (code request) = true ->
  forallb encodable tmpdir = true ->
  exists data,
    utf8_encode (prepare_code (output_path tmpdir) (code request)) = inl data
    /\ utf8_decode data = Some (prepare_code (output_path tmpdir) (code request)).
Proof.
  intros Hcode Hdir.
  assert (forallb encodable (output_path tmpdir) = true) as Hout
    by (by apply os_path_join_forallb).
  pose proof (prepare_code_encodable _ _ Hout Hcode) as Hp.
  destruct (utf8_encode_from_encodable 0 _ Hp) as [data Hd].
  exists data. split; [exact Hd|]. by apply (utf8_decode_encode_from 0).
Qed.

(** X4. Every response the handler returns has exactly one of the two
    shapes: success with [stl_data] and no [error], or failure with an
    [error] and no [stl_data]. *)
Theorem generate_cad_one_shape request w r :
  (generate_cad python tmpdir builtin_text request w).1 = Return r ->
  one_shape r.
Proof. apply generate_cad_response_shape. Qed.



(** X7. The handler never reports success on its own account: a response
    with [success=true] means the script was written, the child ended
    within 45 seconds with exit code 0 and captured output, a file was at
    the artifact path, and [stl_data] is the base64 form of that file. *)
Theorem generate_cad_success_only_after_clean_exit request w r :
  (generate_cad python tmpdir builtin_text request w).1 = Return r ->
  success r = true ->
  exists fs_at d cp data,
    launched python tmpdir request w = Some (Runs fs_at (Some (d, Return cp)))
    /\ d <= 45
    /\ returncode cp = 0%Z
    /\ fs_at d !! output_path tmpdir = Some (File data)
    /\ stl_data r = Some (map Byte.to_N (b64encode data)).
Proof.
  intros Hresp Hok.
  destruct (generate_cad_success_inversion _ _ _ _ _ _ Hresp Hok)
    as (fs_at & d & cp & data & ? & ? & ? & ? & _ & ?).
  by exists fs_at, d, cp, data.
Qed.

(** X8. The size of the payload: when the subprocess left [n] bytes at
    the artifact path, every success response to that run carries an
    [stl_data] of [4 * ceil(n / 3)] characters, each of them a character
    of the base64 alphabet or the padding sign. *)
Theorem generate_cad_payload_size request w fs_at d o data resp :
  launched python tmpdir request w = Some (Runs fs_at (Some (d, o))) ->
  fs_at d !! output_path tmpdir = Some (File data) ->
  (generate_cad python tmpdir builtin_text request w).1 = Return resp ->
  success resp = true ->
  exists stl_b64,
    stl_data resp = Some stl_b64
    /\ length stl_b64 = (4 * ((length data + 2) / 3))%nat
    /\ Forall (fun c => is_Some (value c) \/ c = pad_char) stl_b64.
Proof.
  intros H Hout Hresp Hok.
  destruct (generate_cad_success_inversion _ _ _ _ _ _ Hresp Hok)
    as (fs_at' & d' & cp & data' & H' & _ & _ & Hout' & _ & Hstl).
  rewrite H in H'. injection H' as <- <- _.
  rewrite Hout in Hout'. injection Hout' as <-.
  eexists. split; [exact Hstl|]. split.
  - by rewrite length_map, length_b64encode.
  - apply b64encode_alphabet.
Qed.

(** X9. A call, however it ends, leaves the server with the children it
    had and the dashboard's request counter where it was: the endpoint
    does not count its requests. *)
Theorem generate_cad_leaves_session request w :
  children (generate_cad python tmpdir builtin_text request w).2 = children w
  /\ request_count (generate_cad python tmpdir builtin_text request w).2
     = request_count w.
Proof.
  destruct (generate_cad_final_state python tmpdir builtin_text request w)
    as (F & -> & _).
  done.
Qed.

End HandlerMore.

(** ** More on the rewriting step *)

(** X10. The rewriting works piece by piece: a character that occurs
    neither in [output.stl] nor among the two quotes (a newline, a space, a
    bracket) separates the code into parts that are rewritten on their
    own, whatever the workspace path. *)
Theorem prepare_code_splits_at (path u v : str) (c : N) :
  c ∉ sq :: dq :: output_name ->
  prepare_code path (u ++ c :: v)
  = prepare_code path u ++ c :: prepare_code path v.
Proof.
  intros Hc.
  assert ((c ∉ quoted sq output_name) /\ (c ∉ quoted dq output_name)) as [HA HB].
  { unfold quoted.
    split; intros H; apply Hc;
      rewrite elem_of_cons, elem_of_app, list_elem_of_singleton in H;
      rewrite !elem_of_cons; tauto. }
  rewrite !prepare_code_unfold.
  rewrite (replace_from_barrier _ _ u c v 0) by (done || lia).
  by rewrite replace_from_barrier by (done || lia).
Qed.

Lemma prepare_code_splits_at_witness :
  prepare_code (lit "/t/output.stl")
    (lit "a = 'output.stl'" ++ nl :: lit "b = 'output.stl'")
  = prepare_code (lit "/t/output.stl") (lit "a = 'output.stl'")
      ++ nl :: prepare_code (lit "/t/output.stl") (lit "b = 'output.stl'").
Proof.
  apply prepare_code_splits_at.
  intros H. repeat (apply elem_of_cons in H as [H|H]; [discriminate H|]).
  by apply elem_of_nil in H.
Defined.

(** ** The self-test button *)

Section SelfTest.

Variable python : list str -> gmap str node -> behaviour.
Variable tmpdir : str.

Local Ltac open_test :=
  unfold launched_test, self_test, with_TemporaryDirectory, test_path, output_path;
  cbv zeta;
  generalize (replace test_code (quoted sq output_name)
                (quoted sq (os_path_join tmpdir (lit "output.stl"))));
  intros script;
  unfold finally, bind, try_except, write_text, subprocess_run, os_path_exists, ret;
  cbn [files children request_count set_files set_children set_request_count
       fst snd Nat.pred].

(** What one press of the button amounts to. *)
Lemma self_test_run w :
  exists t F,
    self_test python tmpdir w
    = (Return t,
       rmtree tmpdir
         (World F (children w)
            (match t with
             | TestPassed => S (request_count w)
             | _ => request_count w
             end)
            (sys_stdout w))).
Proof.
  open_test.
  destruct (utf8_encode script) as [data|i];
    cbn [files children request_count set_files set_children fst snd].
  2: { eexists (TestError _), _. reflexivity. }
  destruct (python _ _) as [e|fs_at [[d [r|e]]|]];
    cbn [files children request_count set_files set_children fst snd Nat.pred].
  - eexists (TestError _), _. reflexivity.
  - destruct (d <=? 10);
      cbn [files children request_count set_files set_children fst snd Nat.pred].
    2: { eexists (TestError _), _. reflexivity. }
    destruct (_ && _);
      cbn [files children request_count set_files set_children
           set_request_count fst snd Nat.pred].
    + eexists TestPassed, _. reflexivity.
    + eexists (TestFailed _), _. reflexivity.
  - destruct (d <=? 10);
      cbn [files children request_count set_files set_children fst snd Nat.pred];
      eexists (TestError _), _; reflexivity.
  - eexists (TestError _), _. reflexivity.
Qed.

(** X11. The self-test never raises: the script write, a missing
    interpreter, a timeout and output that is no text all end in a report
    on the page. (The endpoint, with the write outside its [try], lacks
    the first of these.) *)
Theorem self_test_never_raises w :
  exists t, (self_test python tmpdir w).1 = Return t.
Proof. destruct (self_test_run w) as (t & F & ->). by exists t. Qed.

(** X12. The verdict of the self-test for a child that ends within its
    10 seconds: passed exactly when the exit code is 0 and something (a
    file or a directory) exists at the artifact path; otherwise failed,
    showing the child's standard error whole, not cut to 500
    characters. *)
Theorem self_test_verdict w fs_at d r :
  launched_test python tmpdir w = Some (Runs fs_at (Some (d, Return r))) ->
  d <= 10 ->
  (self_test python tmpdir w).1
  = Return (if (returncode r =? 0)%Z
               && bool_decide (is_Some (fs_at d !! output_path tmpdir))
            then TestPassed
            else TestFailed (stderr r)).
Proof.
  open_test. intros H Hd.
  destruct (utf8_encode script) as [data|i]; [|discriminate H].
  injection H as H. cbn [files set_files]. rewrite H.
  apply N.leb_le in Hd. rewrite Hd.
  cbn [files children set_files set_children fst snd Nat.pred returncode stderr].
  by destruct (_ && _).
Qed.

(** X13. The request counter of the page counts passed self-tests and
    nothing else: one press adds one when the test passed and leaves the
    counter alone on a failure or an error. *)
Theorem self_test_counts_passes w :
  request_count (self_test python tmpdir w).2
  = match (self_test python tmpdir w).1 with
    | Return TestPassed => S (request_count w)
    | _ => request_count w
    end.
Proof.
  destruct (self_test_run w) as (t & F & ->). cbn [fst snd].
  by destruct t.
Qed.

(** X14. The self-test leaves nothing behind: however it ends, its
    workspace directory and everything below it are gone, and the server
    has the children it had. *)
Theorem self_test_cleans_up w :
  (forall p, within tmpdir p = true ->
     files (self_test python tmpdir w).2 !! p = None)
  /\ children (self_test python tmpdir w).2 = children w.
Proof.
  destruct (self_test_run w) as (t & F & ->). cbn [snd]. split; [|done].
  intros p Hp. by apply rmtree_gone.
Qed.

End SelfTest.

(** ** More on the readiness probe and the dashboard *)

Section Probes.

Variable import_module : str -> outcome unit.

(** X15. Whenever the probe answers, the answer is consistent: status
    [healthy] with [cad] ready exactly when the import succeeded, status
    [degraded] with [cad] missing exactly when it raised an
    [ImportError]; [services] holds the one key [cad]. *)
Theorem health_report_consistent (r : health_report) :
  health import_module = Return r ->
  (import_module (lit "build123d") = Return tt
   /\ status r = lit "healthy"
   /\ services r = <[lit "cad" := lit "ready"]> ∅)
  \/ ((exists e, import_module (lit "build123d") = Raise e
                 /\ is_ImportError e = true)
      /\ status r = lit "degraded"
      /\ services r = <[lit "cad" := lit "missing"]> ∅).
Proof.
  destruct (import_module (lit "build123d")) as [[]|e] eqn:H.
  - rewrite (health_ready _ H). intros [= <-]. by left.
  - destruct (is_ImportError e) eqn:He.
    + rewrite (health_missing _ e H He). intros [= <-]. right. eauto.
    + by rewrite (health_raises _ e H He).
Qed.

(** X16. The dashboard's own look at the library never fails, and it
    agrees with the probe wherever the probe answers; where the probe
    raises, the dashboard shows the library as missing. *)
Theorem dashboard_agrees_with_health :
  build123d_metric import_module
  = match health import_module with
    | Return r =>
        if bool_decide (services r !! lit "cad" = Some (lit "ready"))
        then installed_label else missing_label
    | Raise _ => missing_label
    end.
Proof.
  unfold build123d_metric.
  destruct (import_module (lit "build123d")) as [[]|e] eqn:H.
  - rewrite (health_ready _ H). cbn [services].
    by rewrite lookup_insert_eq, bool_decide_eq_true_2.
  - destruct (is_ImportError e) eqn:He.
    + rewrite (health_missing _ e H He). cbn [services].
      rewrite lookup_insert_eq, bool_decide_eq_false_2; [done|].
      intros Heq. vm_compute in Heq. discriminate Heq.
    + by rewrite (health_raises _ e H He).
Qed.

End Probes.

(** ** The page script across reruns *)

Section Reruns.

Implicit Types (ss : gmap str pyval) (t : nat).

Lemma keys_differ : lit "api_started" <> lit "request_count".
Proof. intros H. vm_compute in H. discriminate H. Qed.

Lemma page_run_started ss t :
  is_Some ((page_run (ss, t)).1 !! lit "api_started").
Proof.
  unfold page_run, start_api_once, init_request_count. cbn [fst snd].
  repeat case_bool_decide; cbn [fst snd]; try done.
  all: rewrite ?(lookup_insert_ne _ (lit "request_count")) by (symmetry; apply keys_differ).
  all: try done.
  all: rewrite lookup_insert_eq; eauto.
Qed.

Lemma page_run_again ss t :
  is_Some (ss !! lit "api_started") -> (page_run (ss, t)).2 = t.
Proof.
  intros H. unfold page_run, start_api_once. cbn [fst snd].
  by rewrite bool_decide_eq_true_2.
Qed.

Lemma page_run_counter ss t :
  (page_run (ss, t)).1 !! lit "request_count"
  = Some (default (PyInt 0) (ss !! lit "request_count")).
Proof.
  unfold page_run, start_api_once, init_request_count. cbn [fst snd].
  case_bool_decide as Hapi; cbn [fst snd].
  - case_bool_decide as Hrc.
    + destruct Hrc as [v ->]. done.
    + rewrite lookup_insert_eq.
      destruct (ss !! lit "request_count") eqn:E; [|done].
      exfalso. apply Hrc. eauto.
  - rewrite (lookup_insert_ne _ (lit "api_started")) by apply keys_differ.
    case_bool_decide as Hrc.
    + rewrite lookup_insert_ne by apply keys_differ.
      destruct Hrc as [v ->]. done.
    + rewrite lookup_insert_eq.
      destruct (ss !! lit "request_count") eqn:E; [|done].
      exfalso. apply Hrc. eauto.
Qed.

(** X17. Within one session the API is started at most once: however
    often the page script reruns, the number of API threads is what the
    first run left, one more than before for a new session. *)
Theorem api_started_once_per_session ss t n :
  (Nat.iter (S n) page_run (ss, t)).2 = (page_run (ss, t)).2
  /\ ((page_run (ss, t)).2 <= S t)%nat.
Proof.
  split.
  - induction n as [|n IH]; [done|].
    change (Nat.iter (S (S n)) page_run (ss, t))
      with (page_run (Nat.iter (S n) page_run (ss, t))).
    destruct (Nat.iter (S n) page_run (ss, t)) as [ss' t'] eqn:E.
    cbn [snd] in IH. subst t'.
    apply page_run_again.
    change (Nat.iter (S n) page_run (ss, t))
      with (page_run (Nat.iter n page_run (ss, t))) in E.
    destruct (Nat.iter n page_run (ss, t)) as [ss0 t0].
    pose proof (page_run_started ss0 t0) as Hs. by rewrite E in Hs.
  - unfold page_run, start_api_once. cbn [fst snd].
    case_bool_decide; cbn [snd]; lia.
Qed.

(** X18. The guard lives in the session, not in the process: every new
    browser session (an empty session state) starts one more API thread
    in the same server, so [k] sessions leave [k] more threads serving
    port 8080. *)
Theorem api_started_for_every_session t k :
  Nat.iter k new_session t = (k + t)%nat.
Proof.
  induction k as [|k IH]; [done|].
  change (Nat.iter (S k) new_session t)
    with (new_session (Nat.iter k new_session t)).
  rewrite IH. unfold new_session, page_run, start_api_once.
  cbn [fst snd]. rewrite lookup_empty.
  rewrite bool_decide_eq_false_2 by (by intros [? ?]). done.
Qed.

(** X19. Reruns never reset the request counter: after any number of
    runs of the page script the counter holds what it held before the
    first of them, and zero when it was not there. *)
Theorem request_count_survives_reruns ss t n :
  (Nat.iter (S n) page_run (ss, t)).1 !! lit "request_count"
  = Some (default (PyInt 0) (ss !! lit "request_count")).
Proof.
  induction n as [|n IH]; [apply page_run_counter|].
  change (Nat.iter (S (S n)) page_run (ss, t))
    with (page_run (Nat.iter (S n) page_run (ss, t))).
  destruct (Nat.iter (S n) page_run (ss, t)) as [ss' t'].
  cbn [fst] in IH. by rewrite page_run_counter, IH.
Qed.

End Reruns.

(** ** The further statements at work *)

Section MoreWitnesses.

Import Scenario.

Lemma script_of_encodable_text_is_written_witness :
  exists data,
    utf8_encode (prepare_code (output_path tmp) (code cube)) = inl data
    /\ utf8_decode data = Some (prepare_code (output_path tmp) (code cube)).
Proof. apply script_of_encodable_text_is_written; reflexivity. Defined.

Lemma generate_cad_one_shape_witness :
  one_shape {| success := false; stl_data := None; error := Some msg_timeout |}.
Proof.
  apply (generate_cad_one_shape loops tmp text spin idle). reflexivity.
Defined.



Lemma generate_cad_success_only_after_clean_exit_witness :
  exists fs_at d cp data,
    launched (exits 2 0 [] (Some (list_byte_of_string "solid"))) tmp cube idle
    = Some (Runs fs_at (Some (d, Return cp)))
    /\ d <= 45
    /\ returncode cp = 0%Z
    /\ fs_at d !! output_path tmp = Some (File data)
    /\ Some (lit "c29saWQ=") = Some (map Byte.to_N (b64encode data)).
Proof.
  apply (generate_cad_success_only_after_clean_exit
           (exits 2 0 [] (Some (list_byte_of_string "solid"))) tmp text cube idle
           {| success := true; stl_data := Some (lit "c29saWQ="); error := None |});
    reflexivity.
Defined.

Lemma generate_cad_payload_size_witness :
  exists stl_b64,
    Some (lit "c29saWQ=") = Some stl_b64
    /\ length stl_b64 = (4 * ((5 + 2) / 3))%nat
    /\ Forall (fun c => is_Some (value c) \/ c = pad_char) stl_b64.
Proof.
  eapply (generate_cad_payload_size
            (exits 2 0 [] (Some (list_byte_of_string "solid"))) tmp text cube idle
            _ 2 _ (list_byte_of_string "solid")
            {| success := true; stl_data := Some (lit "c29saWQ="); error := None |});
    reflexivity.
Defined.

(** The cube script, working, under the self-test. *)
Lemma self_test_verdict_witness :
  (self_test (exits 2 0 [] (Some (list_byte_of_string "solid"))) tmp idle).1
  = Return TestPassed.
Proof.
  eapply eq_trans.
  - eapply (self_test_verdict _ _ _ _ 2 (Completed 0 [] []));
      [reflexivity|lia].
  - reflexivity.
Defined.

Lemma health_report_consistent_witness :
  let r := {| status := lit "healthy";
              services := <[lit "cad" := lit "ready"]> ∅ |} in
  (Cases.import_ok (lit "build123d") = Return tt
   /\ status r = lit "healthy"
   /\ services r = <[lit "cad" := lit "ready"]> ∅)
  \/ ((exists e, Cases.import_ok (lit "build123d") = Raise e
                 /\ is_ImportError e = true)
      /\ status r = lit "degraded"
      /\ services r = <[lit "cad" := lit "missing"]> ∅).
Proof.
  intros r. apply (health_report_consistent Cases.import_ok r). reflexivity.
Defined.

End MoreWitnesses.
